(** * Code-Sharing: the editor state container and the editor panel

    A shallow embedding of
    - [src/assets/composables/useEditor.js]  (the state container), and
    - the script part of [src/components/CodeEditor.vue] (the editor panel),
    together with the properties of them that the specification states.

    Modelling conventions.
    - A JavaScript string is a [string]; [===] on strings is equality of
      their contents, hence [String.eqb].
    - A Vue [ref] is a location of a store [gmap loc string]; [ref(v)]
      allocates a location that the store does not have yet, [r.value]
      is a lookup and [r.value = v] an insertion.  Two handles that hold
      the same location alias the same cell.
    - [String.prototype.toLowerCase] is a builtin of the JavaScript
      runtime; the state container is a section over it.  [asciiLower]
      is an instance (the ASCII letters), used on concrete inputs.
    - The browser (clipboard, document, alert, console) is a record
      [World]; what the browser answers to a call (the clipboard write
      resolves or rejects, the legacy copy command returns or throws) is
      a record [Browser].  Handlers are written in a state-and-exception
      monad over [World].
    - The page runs one handler at a time.  An [await] is modelled by
      its outcome: the handler goes on where the promise resolves and
      throws where it rejects; what other handlers do to the page while
      it is suspended is not part of a run.
    - Of the component, the model has the script's variables, the mount
      hook, the menu handlers, the share action and the routing of a
      click through the template's handlers.  The watch effects and the
      content listener that the mount registers are not run. *)

From stdpp Require Import gmap strings list.
From Stdlib Require Import Ascii String.

Open Scope string_scope.

(** ** Strings of the runtime *)

Module JSString.

(** The double quote and the line feed, for literals that contain them. *)
Definition dquote : string := String (ascii_of_nat 34) EmptyString.
Definition lf : string := String (ascii_of_nat 10) EmptyString.

(** A template literal that spans several lines. *)
Fixpoint unlines (ls : list string) : string :=
  match ls with
  | [] => EmptyString
  | [l] => l
  | l :: rest => l ++ lf ++ unlines rest
  end.

(** [toLowerCase] on the ASCII range: 'A'..'Z' become 'a'..'z'. *)
Definition lowerAscii (c : ascii) : ascii :=
  let n := nat_of_ascii c in
  if (65 <=? n)%nat && (n <=? 90)%nat then ascii_of_nat (n + 32) else c.

Fixpoint asciiLower (s : string) : string :=
  match s with
  | EmptyString => EmptyString
  | String c rest => String (lowerAscii c) (asciiLower rest)
  end.

End JSString.

(** ** The state container, [useEditor.js] *)

Module Editor.

Import JSString.

(** Locations of Vue refs. *)
Definition loc := positive.

(** [ref(v)]: a cell the store does not have yet. *)
Definition ref (v : string) (σ : gmap loc string) : loc * gmap loc string :=
  let l := fresh (dom σ) in (l, <[l := v]> σ).

(** The refs of the object that [useEditor] returns.  Its four setters
    close over these refs and over nothing else, so they are functions
    of the handle. *)
Record Handle : Type := mkHandle {
  defaultCode : loc;
  currentLanguage : loc;
  currentTheme : loc;
  currentLink : loc
}.

(** The template literal that initialises [defaultCode]. *)
Definition defaultCodeSample : string :=
  unlines
    [ "<html>";
      "  <head>";
      "    <title>HTML Sample</title>";
      "    <meta http-equiv=" ++ dquote ++ "X-UA-Compatible" ++ dquote
        ++ " content=" ++ dquote ++ "IE=edge" ++ dquote ++ " />";
      "    <style type=" ++ dquote ++ "text/css" ++ dquote ++ ">";
      "      h1 {";
      "        color: #cca3a3;";
      "      }";
      "    </style>";
      "    <script type=" ++ dquote ++ "text/javascript" ++ dquote ++ ">";
      "      alert(" ++ dquote
        ++ "I am a sample... visit devChallengs.io for more projects"
        ++ dquote ++ ");";
      "    </script>";
      "  </head>";
      "  <body>";
      "    <h1>Heading No.1</h1>";
      "    <input disabled type=" ++ dquote ++ "button" ++ dquote
        ++ " value=" ++ dquote ++ "Click me" ++ dquote ++ " />";
      "  </body>";
      "</html>" ].

(** [useEditor()]: four refs, allocated in the order of the source. *)
Definition useEditor (σ : gmap loc string) : Handle * gmap loc string :=
  let '(lang, σ1) := ref "html" σ in
  let '(theme, σ2) := ref "vs-dark" σ1 in
  let '(link, σ3) := ref EmptyString σ2 in
  let '(code, σ4) := ref defaultCodeSample σ3 in
  ({| defaultCode := code; currentLanguage := lang;
      currentTheme := theme; currentLink := link |}, σ4).

Section Setters.

(** [String.prototype.toLowerCase] of the runtime. *)
Variable toLowerCase : string → string.

Definition setLanguage (h : Handle) (language : string)
    (σ : gmap loc string) : gmap loc string :=
  <[currentLanguage h := toLowerCase language]> σ.

Definition setTheme (h : Handle) (theme : string)
    (σ : gmap loc string) : gmap loc string :=
  <[currentTheme h := if String.eqb theme "Dark" then "vs-dark" else "vs"]> σ.

Definition setLink (h : Handle) (link : string)
    (σ : gmap loc string) : gmap loc string :=
  <[currentLink h := link]> σ.

Definition setCode (h : Handle) (newCode : string)
    (σ : gmap loc string) : gmap loc string :=
  <[defaultCode h := newCode]> σ.

(** A call of one of the four setters of a handle. *)
Inductive SetterCall : Type :=
| SetLanguage (language : string)
| SetTheme (theme : string)
| SetLink (link : string)
| SetCode (newCode : string).

Definition call (h : Handle) (op : SetterCall) (σ : gmap loc string)
    : gmap loc string :=
  match op with
  | SetLanguage language => setLanguage h language σ
  | SetTheme theme => setTheme h theme σ
  | SetLink link => setLink h link σ
  | SetCode newCode => setCode h newCode σ
  end.

(** The ref that a setter writes, and what it writes there. *)
Definition target (h : Handle) (op : SetterCall) : loc :=
  match op with
  | SetLanguage _ => currentLanguage h
  | SetTheme _ => currentTheme h
  | SetLink _ => currentLink h
  | SetCode _ => defaultCode h
  end.

Definition written (op : SetterCall) : string :=
  match op with
  | SetLanguage language => toLowerCase language
  | SetTheme theme => if String.eqb theme "Dark" then "vs-dark" else "vs"
  | SetLink link => link
  | SetCode newCode => newCode
  end.

End Setters.

(** The refs of a handle. *)
Definition refs (h : Handle) : list loc :=
  [defaultCode h; currentLanguage h; currentTheme h; currentLink h].

End Editor.

(** ** The editor panel, [CodeEditor.vue] *)

Module Panel.

Import JSString Editor.

(** *** The browser *)

(** What a handler can throw. *)
Inductive Exn : Type :=
| TypeError          (* a property of [undefined] is read *)
| NotAllowedError    (* the promise of [clipboard.writeText] rejects *)
| ExecCommandError   (* [document.execCommand] throws *)
| NotFoundError      (* [removeChild] of a node that is not a child *)
| MonacoError.       (* [monaco.editor.create] throws *)

(** An element.  [nodeId] is the identity of the JavaScript object. *)
Record Node : Type := mkNode {
  nodeId : nat;
  tagName : string;
  nodeValue : string
}.

(** The listener that a panel registers on the document: the
    [closeDropdowns] closure of its instance. *)
Inductive Listener : Type := CloseDropdowns.

#[export] Instance Listener_eq_dec : EqDecision Listener.
Proof. solve_decision. Defined.

Record Document : Type := mkDocument {
  nextNode : nat;                 (* identity of the next created element *)
  body : list Node;               (* children of [document.body] *)
  activeElement : option nat;
  selection : option nat;         (* the field whose text is selected *)
  clickListeners : list Listener
}.

Inductive ConsoleEntry : Type :=
| ConsoleLog (label payload : string)
| ConsoleError (label : string) (error : Exn).

Record World : Type := mkWorld {
  document : Document;
  clipboard : option string;      (* content of the system clipboard *)
  alerts : list string;           (* the [alert] dialogs shown so far *)
  console : list ConsoleEntry;
  MonacoEnvironment : option (string → string → string)
}.

(** What the browser answers. *)
Inductive WriteTextOutcome : Type :=
| ClipboardAbsent     (* [navigator.clipboard] is undefined *)
| WriteResolves
| WriteRejects.

Inductive ExecCopyOutcome : Type :=
| CopyReturnsTrue
| CopyReturnsFalse
| CopyThrows.

Inductive CreateOutcome : Type :=
| CreateReturns
| CreateThrows.

Record Browser : Type := mkBrowser {
  writeTextOutcome : WriteTextOutcome;
  execCopyOutcome : ExecCopyOutcome;
  monacoCreateOutcome : CreateOutcome
}.

(** *** Handlers: state over [World], and exceptions *)

Inductive Result (A : Type) : Type :=
| Returned (a : A)
| Thrown (e : Exn).
Arguments Returned {A} a.
Arguments Thrown {A} e.

Definition Eff (A : Type) : Type := World → Result A * World.

#[export] Instance Eff_ret : MRet Eff := λ A a w, (Returned a, w).

#[export] Instance Eff_bind : MBind Eff := λ A B k m w,
  match m w with
  | (Returned a, w1) => k a w1
  | (Thrown e, w1) => (Thrown e, w1)
  end.

Definition throw {A : Type} (e : Exn) : Eff A := λ w, (Thrown e, w).

(** [try { m } catch (e) { handler e }] *)
Definition tryCatch {A : Type} (m : Eff A) (handler : Exn → Eff A) : Eff A :=
  λ w, match m w with
       | (Returned a, w1) => (Returned a, w1)
       | (Thrown e, w1) => handler e w1
       end.

Definition modify (f : World → World) : Eff unit := λ w, (Returned (), f w).

Definition withDocument (f : Document → Document) (w : World) : World :=
  {| document := f (document w); clipboard := clipboard w;
     alerts := alerts w; console := console w;
     MonacoEnvironment := MonacoEnvironment w |}.

Definition withClipboard (text : string) (w : World) : World :=
  {| document := document w; clipboard := Some text;
     alerts := alerts w; console := console w;
     MonacoEnvironment := MonacoEnvironment w |}.

Definition alert (message : string) : Eff unit :=
  modify (λ w,
    {| document := document w; clipboard := clipboard w;
       alerts := alerts w ++ [message]; console := console w;
       MonacoEnvironment := MonacoEnvironment w |}).

Definition consoleWrite (entry : ConsoleEntry) : Eff unit :=
  modify (λ w,
    {| document := document w; clipboard := clipboard w;
       alerts := alerts w; console := console w ++ [entry];
       MonacoEnvironment := MonacoEnvironment w |}).

Definition setMonacoEnvironment (getWorkerUrl : string → string → string)
    : Eff unit :=
  modify (λ w,
    {| document := document w; clipboard := clipboard w;
       alerts := alerts w; console := console w;
       MonacoEnvironment := Some getWorkerUrl |}).

(** [navigator.clipboard.writeText(text)], awaited: reading [writeText]
    of an absent clipboard throws, a rejected promise throws at the
    [await]. *)
Definition writeText (br : Browser) (text : string) : Eff unit :=
  match writeTextOutcome br with
  | ClipboardAbsent => throw TypeError
  | WriteRejects => throw NotAllowedError
  | WriteResolves => modify (withClipboard text)
  end.

(** [document.createElement(tag)]: a new element, not in the document. *)
Definition createElement (tag : string) : Eff Node := λ w,
  let d := document w in
  (Returned {| nodeId := nextNode d; tagName := tag; nodeValue := EmptyString |},
   withDocument (λ d,
     {| nextNode := S (nextNode d); body := body d;
        activeElement := activeElement d; selection := selection d;
        clickListeners := clickListeners d |}) w).

(** [node.value = text], on an element that is not shared yet. *)
Definition setValue (node : Node) (text : string) : Node :=
  {| nodeId := nodeId node; tagName := tagName node; nodeValue := text |}.

Definition isNode (node other : Node) : bool :=
  Nat.eqb (nodeId other) (nodeId node).

Definition attached (node : Node) (d : Document) : bool :=
  existsb (isNode node) (body d).

(** [document.body.appendChild(node)] *)
Definition appendChild (node : Node) : Eff unit :=
  modify (withDocument (λ d,
    {| nextNode := nextNode d;
       body := List.filter (λ n, negb (isNode node n)) (body d) ++ [node];
       activeElement := activeElement d; selection := selection d;
       clickListeners := clickListeners d |})).

(** [node.focus()] *)
Definition focus (node : Node) : Eff unit :=
  modify (withDocument (λ d,
    {| nextNode := nextNode d; body := body d;
       activeElement :=
         if attached node d then Some (nodeId node) else activeElement d;
       selection := selection d;
       clickListeners := clickListeners d |})).

(** [node.select()] *)
Definition select (node : Node) : Eff unit :=
  modify (withDocument (λ d,
    {| nextNode := nextNode d; body := body d;
       activeElement := activeElement d;
       selection := Some (nodeId node);
       clickListeners := clickListeners d |})).

Definition dropRef (node : Node) (r : option nat) : option nat :=
  match r with
  | Some i => if Nat.eqb i (nodeId node) then None else Some i
  | None => None
  end.

(** [document.body.removeChild(node)] *)
Definition removeChild (node : Node) : Eff unit := λ w,
  if attached node (document w) then
    modify (withDocument (λ d,
      {| nextNode := nextNode d;
         body := List.filter (λ n, negb (isNode node n)) (body d);
         activeElement := dropRef node (activeElement d);
         selection := dropRef node (selection d);
         clickListeners := clickListeners d |})) w
  else throw NotFoundError w.

(** The text that a copy command takes: that of the selected field. *)
Definition selectedText (d : Document) : option string :=
  match selection d with
  | Some i =>
      match List.find (λ n, Nat.eqb (nodeId n) i) (body d) with
      | Some n => Some (nodeValue n)
      | None => None
      end
  | None => None
  end.

(** [document.execCommand('copy')] *)
Definition execCommandCopy (br : Browser) : Eff bool :=
  match execCopyOutcome br with
  | CopyThrows => throw ExecCommandError
  | CopyReturnsFalse => mret false
  | CopyReturnsTrue =>
      λ w, (Returned true,
            match selectedText (document w) with
            | Some text => withClipboard text w
            | None => w
            end)
  end.

(** [document.addEventListener('click', l)].  The closure that a mount
    registers is made by the setup of the instance that mounts, so it is
    not on the document yet: the listener is added. *)
Definition addClickListener (l : Listener) : Eff unit :=
  modify (withDocument (λ d,
    {| nextNode := nextNode d; body := body d;
       activeElement := activeElement d; selection := selection d;
       clickListeners := clickListeners d ++ [l] |})).

(** *** The component *)

(** The editing widget: what [monaco.editor.create] is given to show. *)
Record Widget : Type := mkWidget {
  value : string;
  language : string;
  theme : string
}.

Definition getValue (ed : Widget) : string := value ed.

(** The variables of [<script setup>]. *)
Record Component : Type := mkComponent {
  editorStore : Handle;       (* const editorStore = useEditor() *)
  editor : option Widget;     (* let editor = null *)
  showLanguages : bool;       (* ref(false) *)
  showThemes : bool           (* ref(false) *)
}.

(** The setup of the script: its own state container, no widget, both
    menus closed. *)
Definition setup (σ : gmap loc string) : Component * gmap loc string :=
  let '(h, σ1) := useEditor σ in
  ({| editorStore := h; editor := None;
      showLanguages := false; showThemes := false |}, σ1).

Definition closeDropdowns (c : Component) : Component :=
  {| editorStore := editorStore c; editor := editor c;
     showLanguages := false; showThemes := false |}.

Definition getWorkerUrl (moduleId label : string) : string :=
  if String.eqb label "json" then
    "./vs/language/json/json.worker.js"
  else if String.eqb label "css" || String.eqb label "scss"
          || String.eqb label "less" then
    "./vs/language/css/css.worker.js"
  else if String.eqb label "html" || String.eqb label "handlebars"
          || String.eqb label "razor" then
    "./vs/language/html/html.worker.js"
  else if String.eqb label "typescript" || String.eqb label "javascript" then
    "./vs/language/typescript/ts.worker.js"
  else
    "./vs/editor/editor.worker.js".

(** The labels that have a worker of their own. *)
Definition workerLabels : list string :=
  [ "json"; "css"; "scss"; "less"; "html"; "handlebars"; "razor";
    "typescript"; "javascript" ].

(** [r.value] of a ref of the store. *)
Definition deref (σ : gmap loc string) (l : loc) : string :=
  default EmptyString (σ !! l).

(** [monaco.editor.create(container, options)] *)
Definition monacoCreate (br : Browser) (text lang thm : string) : Eff Widget :=
  match monacoCreateOutcome br with
  | CreateReturns => mret {| value := text; language := lang; theme := thm |}
  | CreateThrows => throw MonacoError
  end.

(** The [onMounted] hook.  [editorContainer] tells whether the template
    ref holds an element.  The content listener and the two watch effects
    that the hook registers run later, on the events they wait for. *)
Definition onMounted (br : Browser) (editorContainer : bool)
    (c : Component) (σ : gmap loc string) : Eff Component :=
  c1 ← (if editorContainer then
          tryCatch
            (setMonacoEnvironment getWorkerUrl ;;
             ed ← monacoCreate br
                    (deref σ (defaultCode (editorStore c)))
                    (deref σ (currentLanguage (editorStore c)))
                    (deref σ (currentTheme (editorStore c))) ;
             mret {| editorStore := editorStore c; editor := Some ed;
                     showLanguages := showLanguages c;
                     showThemes := showThemes c |})
            (λ error,
               consoleWrite
                 (ConsoleError "Failed to initialize Monaco Editor:" error) ;;
               mret c)
        else mret c) ;
  addClickListener CloseDropdowns ;;
  mret c1.

Definition copied : string := "Code copied to clipboard!".
Definition copyFailed : string := "Failed to copy code. Please copy it manually.".

(** [shareCode], the handler of the share button. *)
Definition shareCode (br : Browser) (c : Component) : Eff unit :=
  match editor c with
  | Some ed =>
      let code := getValue ed in
      consoleWrite (ConsoleLog "Sharing code:" code) ;;
      tryCatch
        (writeText br code ;;
         alert copied)
        (λ err,
           consoleWrite (ConsoleError "Error copying code:" err) ;;
           textArea ← createElement "textarea" ;
           let textArea := setValue textArea code in
           appendChild textArea ;;
           focus textArea ;;
           select textArea ;;
           tryCatch
             (_ ← execCommandCopy br ;
              alert copied)
             (λ fallbackErr,
                consoleWrite (ConsoleError "Fallback copy failed:" fallbackErr) ;;
                alert copyFailed) ;;
           removeChild textArea)
  | None => mret ()
  end.

(** *** Clicks *)

Record Event : Type := mkEvent { propagationStopped : bool }.

Definition stopPropagation (event : Event) : Event :=
  {| propagationStopped := true |}.

Definition runListener (l : Listener) (c : Component) : Component :=
  match l with
  | CloseDropdowns => closeDropdowns c
  end.

(** A click that has bubbled up to the document. *)
Definition documentClick (event : Event) (d : Document) (c : Component)
    : Component :=
  if propagationStopped event then c
  else foldl (λ c l, runListener l c) c (clickListeners d).

Section Menus.

(** [String.prototype.toLowerCase] of the runtime. *)
Variable toLowerCase : string → string.

Definition changeLanguage (lang : string) (c : Component)
    (σ : gmap loc string) : Component * gmap loc string :=
  ({| editorStore := editorStore c; editor := editor c;
      showLanguages := false; showThemes := showThemes c |},
   setLanguage toLowerCase (editorStore c) lang σ).

Definition changeTheme (thm : string) (c : Component)
    (σ : gmap loc string) : Component * gmap loc string :=
  ({| editorStore := editorStore c; editor := editor c;
      showLanguages := showLanguages c; showThemes := false |},
   setTheme (editorStore c) thm σ).

(** A click on the option [lang] of the language menu: the button calls
    [changeLanguage(language.toLowerCase())], then the enclosing [div]
    calls [stopPropagation], then the document gets what is left. *)
Definition clickLanguageOption (lang : string) (d : Document)
    (c : Component) (σ : gmap loc string) : Component * gmap loc string :=
  let event := {| propagationStopped := false |} in
  let '(c1, σ1) := changeLanguage (toLowerCase lang) c σ in
  let event := stopPropagation event in
  (documentClick event d c1, σ1).

(** A click on the option [thm] of the theme menu. *)
Definition clickThemeOption (thm : string) (d : Document)
    (c : Component) (σ : gmap loc string) : Component * gmap loc string :=
  let event := {| propagationStopped := false |} in
  let '(c1, σ1) := changeTheme thm c σ in
  let event := stopPropagation event in
  (documentClick event d c1, σ1).

(** A click anywhere outside the two menus. *)
Definition clickOutside (d : Document) (c : Component) : Component :=
  documentClick {| propagationStopped := false |} d c.

End Menus.

(** *** Notions used in the statements *)

(** Every element of the document was created before. *)
Definition dom_wf (d : Document) : Prop :=
  Forall (λ n, nodeId n < nextNode d) (body d).

(** The world after the share action took the fallback path. *)
Definition afterFallback (br : Browser) (err : Exn) (code : string)
    (w : World) : World :=
  {| document :=
       {| nextNode := S (nextNode (document w));
          body := body (document w);
          activeElement := None;
          selection := None;
          clickListeners := clickListeners (document w) |};
     clipboard :=
       match execCopyOutcome br with
       | CopyReturnsTrue => Some code
       | _ => clipboard w
       end;
     alerts :=
       alerts w ++ [match execCopyOutcome br with
                    | CopyThrows => copyFailed
                    | _ => copied
                    end];
     console :=
       ((console w ++ [ConsoleLog "Sharing code:" code])
          ++ [ConsoleError "Error copying code:" err])
         ++ match execCopyOutcome br with
            | CopyThrows =>
                [ConsoleError "Fallback copy failed:" ExecCommandError]
            | _ => []
            end;
     MonacoEnvironment := MonacoEnvironment w |}.

Definition writeError (br : Browser) : Exn :=
  match writeTextOutcome br with
  | ClipboardAbsent => TypeError
  | _ => NotAllowedError
  end.

(** *** A page, for concrete runs *)

(** The panel's container and its share button, the button focused. *)
Definition pageDocument : Document :=
  {| nextNode := 3;
     body := [ {| nodeId := 0; tagName := "div"; nodeValue := EmptyString |};
               {| nodeId := 2; tagName := "button"; nodeValue := EmptyString |} ];
     activeElement := Some 2;
     selection := None;
     clickListeners := [CloseDropdowns] |}.

Definition pageWorld : World :=
  {| document := pageDocument; clipboard := None; alerts := [];
     console := []; MonacoEnvironment := None |}.

(** A browser without clipboard API, and one whose clipboard works. *)
Definition legacyBrowser : Browser :=
  {| writeTextOutcome := ClipboardAbsent; execCopyOutcome := CopyReturnsTrue;
     monacoCreateOutcome := CreateReturns |}.

Definition modernBrowser : Browser :=
  {| writeTextOutcome := WriteResolves; execCopyOutcome := CopyReturnsTrue;
     monacoCreateOutcome := CreateReturns |}.

(** A browser in which the widget cannot be constructed. *)
Definition brokenBrowser : Browser :=
  {| writeTextOutcome := WriteResolves; execCopyOutcome := CopyReturnsTrue;
     monacoCreateOutcome := CreateThrows |}.

(** The component after its mount in browser [br], on an empty store. *)
Definition mounted (br : Browser) : Component :=
  let '(c, σ) := setup ∅ in
  match (onMounted br true c σ pageWorld).1 with
  | Returned c1 => c1
  | Thrown _ => c
  end.

(** A component with both menus open. *)
Definition menusOpen : Component :=
  {| editorStore := (useEditor ∅).1; editor := None;
     showLanguages := true; showThemes := true |}.

End Panel.

(** ** The template of the panel, [CodeEditor.vue] *)

Module Template.

Import JSString Editor Panel.

(** *** Defaults of the props *)

Definition defaultHeight : string := "300px".

Definition defaultLanguages : list string :=
  [ "HTML"; "CSS"; "JavaScript"; "TypeScript"; "Python"; "Java" ].

Definition defaultThemes : list string := [ "Light"; "Dark" ].

Definition defaultShowShareButton : bool := true.

(** *** What the template shows *)

(** [found || other] where [found] is what [Array.prototype.find]
    returned: [undefined] and the empty string are falsy. *)
Definition orElse (found : option string) (other : string) : string :=
  match found with
  | None => other
  | Some EmptyString => other
  | Some s => s
  end.

(** The background of the panel, [dynamicColor]. *)
Definition dynamicColor (c : Component) (σ : gmap loc string) : string :=
  if String.eqb (deref σ (currentTheme (editorStore c))) "vs-dark"
  then "#1e1e1e" else "#fff".

(** The text of the button of the theme menu. *)
Definition themeLabel (c : Component) (σ : gmap loc string) : string :=
  if String.eqb (deref σ (currentTheme (editorStore c))) "vs"
  then "Light" else "Dark".

(** Whether the option [thm] of the theme menu is highlighted. *)
Definition themeHighlighted (thm : string) (c : Component)
    (σ : gmap loc string) : bool :=
  (String.eqb thm "Dark"
   && String.eqb (deref σ (currentTheme (editorStore c))) "vs-dark")
  || (String.eqb thm "Light"
      && String.eqb (deref σ (currentTheme (editorStore c))) "vs").

Section Languages.

(** [String.prototype.toLowerCase] of the runtime. *)
Variable toLowerCase : string → string.

(** The text of the button of the language menu. *)
Definition languageLabel (availableLanguages : list string) (c : Component)
    (σ : gmap loc string) : string :=
  orElse
    (List.find
       (λ lang, String.eqb (toLowerCase lang)
                  (deref σ (currentLanguage (editorStore c))))
       availableLanguages)
    (deref σ (currentLanguage (editorStore c))).

(** Whether the option [lang] of the language menu is highlighted. *)
Definition languageHighlighted (lang : string) (c : Component)
    (σ : gmap loc string) : bool :=
  String.eqb (toLowerCase lang) (deref σ (currentLanguage (editorStore c))).

End Languages.

(** *** The two menu buttons *)

(** A click on the button of the language menu:
    [showLanguages = !showLanguages], then the enclosing [div] stops the
    propagation. *)
Definition clickLanguageToggle (d : Document) (c : Component) : Component :=
  let event := {| propagationStopped := false |} in
  let c1 := {| editorStore := editorStore c; editor := editor c;
               showLanguages := negb (showLanguages c);
               showThemes := showThemes c |} in
  let event := stopPropagation event in
  documentClick event d c1.

(** A click on the button of the theme menu. *)
Definition clickThemeToggle (d : Document) (c : Component) : Component :=
  let event := {| propagationStopped := false |} in
  let c1 := {| editorStore := editorStore c; editor := editor c;
               showLanguages := showLanguages c;
               showThemes := negb (showThemes c) |} in
  let event := stopPropagation event in
  documentClick event d c1.

End Template.

(** ** The panel after its mount, [CodeEditor.vue] *)

Module Lifecycle.

Import JSString Editor Panel Template.

(** *** What the mount hook registers *)

(** The widget after an edit that leaves [buffer] as its content:
    [buffer] is what [getValue()] returns from then on, with the line
    ends as the widget keeps them, not the keys that were pressed. *)
Definition setModelValue (buffer : string) (ed : Widget) : Widget :=
  {| value := buffer; language := language ed; theme := theme ed |}.

(** The listener given to [onDidChangeModelContent]:
    [editorStore.setCode(editor.getValue())].  It is registered on a
    constructed widget only. *)
Definition contentChanged (c : Component) (σ : gmap loc string)
    : gmap loc string :=
  match editor c with
  | Some ed => setCode (editorStore c) (getValue ed) σ
  | None => σ
  end.

(** An edit of the user after which the widget holds [buffer]: the
    widget changes its content and notifies its listener. *)
Definition editBuffer (buffer : string) (c : Component)
    (σ : gmap loc string) : Component * gmap loc string :=
  match editor c with
  | Some ed =>
      let c1 := {| editorStore := editorStore c;
                   editor := Some (setModelValue buffer ed);
                   showLanguages := showLanguages c;
                   showThemes := showThemes c |} in
      (c1, contentChanged c1 σ)
  | None => (c, σ)
  end.

Section Effects.

(** What the widget makes of an identifier that it is given: monaco
    takes the language of a registered identifier and plain text for any
    other, and the theme of a defined name and its light theme for any
    other.  Both tables belong to the widget, not to this repository. *)
Variable resolveLanguage : string → string.
Variable resolveTheme : string → string.

(** The first watch effect:
    [if (editor) monaco.editor.setTheme(editorStore.currentTheme.value)]. *)
Definition themeEffect (c : Component) (σ : gmap loc string) : Component :=
  match editor c with
  | Some ed =>
      {| editorStore := editorStore c;
         editor :=
           Some {| value := value ed; language := language ed;
                   theme := resolveTheme
                              (deref σ (currentTheme (editorStore c))) |};
         showLanguages := showLanguages c; showThemes := showThemes c |}
  | None => c
  end.

(** The second watch effect: [setModelLanguage] with the stored language.
    A widget constructed with a [value] has a model. *)
Definition languageEffect (c : Component) (σ : gmap loc string) : Component :=
  match editor c with
  | Some ed =>
      {| editorStore := editorStore c;
         editor :=
           Some {| value := value ed;
                   language := resolveLanguage
                                 (deref σ (currentLanguage (editorStore c)));
                   theme := theme ed |};
         showLanguages := showLanguages c; showThemes := showThemes c |}
  | None => c
  end.

(** Both effects, in the order of their registration. *)
Definition runEffects (c : Component) (σ : gmap loc string) : Component :=
  languageEffect (themeEffect c σ) σ.

(** The widget, where there is one, holds the stored code and shows what
    it makes of the stored language and of the stored theme. *)
Definition follows (c : Component) (σ : gmap loc string) : Prop :=
  match editor c with
  | Some ed =>
      value ed = deref σ (defaultCode (editorStore c))
      ∧ language ed
        = resolveLanguage (deref σ (currentLanguage (editorStore c)))
      ∧ theme ed = resolveTheme (deref σ (currentTheme (editorStore c)))
  | None => True
  end.

End Effects.

(** *** What the user does with a mounted panel *)

Inductive UserEvent : Type :=
| EditBuffer (buffer : string)
| ToggleLanguages
| ToggleThemes
| PickLanguage (lang : string)
| PickTheme (thm : string)
| ClickOutside.

Section Events.

(** [String.prototype.toLowerCase] of the runtime, and the two tables of
    the widget. *)
Variable toLowerCase : string → string.
Variable resolveLanguage : string → string.
Variable resolveTheme : string → string.

(** The handlers that one event runs. *)
Definition dispatch (ev : UserEvent) (d : Document) (c : Component)
    (σ : gmap loc string) : Component * gmap loc string :=
  match ev with
  | EditBuffer buffer => editBuffer buffer c σ
  | ToggleLanguages => (clickLanguageToggle d c, σ)
  | ToggleThemes => (clickThemeToggle d c, σ)
  | PickLanguage lang => clickLanguageOption toLowerCase lang d c σ
  | PickTheme thm => clickThemeOption thm d c σ
  | ClickOutside => (clickOutside d c, σ)
  end.

(** One turn of the page: the handlers of the event, then the watch
    effects.  Vue runs an effect again when a ref that it read has
    changed; on a widget that follows the store, a run after no change
    changes nothing, so the effects are run after every event. *)
Definition turn (d : Document) (s : Component * gmap loc string)
    (ev : UserEvent) : Component * gmap loc string :=
  let '(c1, σ1) := dispatch ev d s.1 s.2 in
  (runEffects resolveLanguage resolveTheme c1 σ1, σ1).

Definition turns (d : Document) (evs : list UserEvent)
    (s : Component * gmap loc string) : Component * gmap loc string :=
  foldl (turn d) s evs.

End Events.

(** *** Notions used in the statements *)

(** The widget, where there is one, was given what the store holds. *)
Definition in_sync (c : Component) (σ : gmap loc string) : Prop :=
  match editor c with
  | Some ed =>
      value ed = deref σ (defaultCode (editorStore c))
      ∧ language ed = deref σ (currentLanguage (editorStore c))
      ∧ theme ed = deref σ (currentTheme (editorStore c))
  | None => True
  end.

(** The stored theme is one of the two identifiers of the widget. *)
Definition theme_known (c : Component) (σ : gmap loc string) : Prop :=
  σ !! currentTheme (editorStore c) = Some "vs-dark"
  ∨ σ !! currentTheme (editorStore c) = Some "vs".

(** Two calls of setters that write the same field of a handle. *)
Definition sameField (op op' : SetterCall) : bool :=
  match op, op' with
  | SetLanguage _, SetLanguage _ => true
  | SetTheme _, SetTheme _ => true
  | SetLink _, SetLink _ => true
  | SetCode _, SetCode _ => true
  | _, _ => false
  end.

(** What a program does to the store after a first state container was
    made: it calls setters, through whatever handle, and makes further
    state containers. *)
Inductive later (toLowerCase : string → string) (σ : gmap loc string)
    : gmap loc string → Prop :=
| later_now : later toLowerCase σ σ
| later_call (s : gmap loc string) (h : Handle) (op : SetterCall) :
    later toLowerCase σ s → later toLowerCase σ (call toLowerCase h op s)
| later_useEditor (s : gmap loc string) :
    later toLowerCase σ s → later toLowerCase σ (useEditor s).2.

(** A registry of the widget for concrete runs: the languages it knows,
    plain text for the rest; its two themes, the light one for the rest. *)
Definition exampleLanguage (id : string) : string :=
  if bool_decide (id ∈ [ "plaintext"; "html"; "css"; "javascript";
                         "typescript"; "python"; "java"; "json" ])
  then id else "plaintext".

Definition exampleTheme (name : string) : string :=
  if bool_decide (name ∈ [ "vs"; "vs-dark" ]) then name else "vs".

(** A browser without clipboard API whose legacy copy command reports
    that it did nothing. *)
Definition refusingBrowser : Browser :=
  {| writeTextOutcome := ClipboardAbsent; execCopyOutcome := CopyReturnsFalse;
     monacoCreateOutcome := CreateReturns |}.

(** A page on which the panel is not mounted yet. *)
Definition blankDocument : Document :=
  {| nextNode := 1;
     body := [ {| nodeId := 0; tagName := "div"; nodeValue := EmptyString |} ];
     activeElement := None; selection := None; clickListeners := [] |}.

Definition blankWorld : World :=
  {| document := blankDocument; clipboard := None; alerts := [];
     console := []; MonacoEnvironment := None |}.

End Lifecycle.

(** * Properties *)

Import JSString Editor Panel Template Lifecycle.

(** ** Strings *)

Lemma lowerAscii_idem (c : ascii) : lowerAscii (lowerAscii c) = lowerAscii c.
Proof. by destruct c as [[] [] [] [] [] [] [] []]. Qed.

Lemma asciiLower_idem (s : string) : asciiLower (asciiLower s) = asciiLower s.
Proof.
  induction s as [|c s IH]; [done|].
  cbn [asciiLower]. by rewrite lowerAscii_idem, IH.
Qed.

(** ** The state container *)

Section ContainerFacts.

Variable toLowerCase : string → string.

Implicit Types (σ : gmap loc string) (h : Handle) (l : loc) (v : string).

(** What [useEditor] allocates: four cells that the store did not have,
    pairwise different, with the initial values; the rest of the store
    is as it was. *)
Lemma useEditor_alloc σ :
  let h := (useEditor σ).1 in
  let σ' := (useEditor σ).2 in
  Forall (λ l, σ !! l = None) (refs h)
  ∧ NoDup (refs h)
  ∧ σ' !! currentLanguage h = Some "html"
  ∧ σ' !! currentTheme h = Some "vs-dark"
  ∧ σ' !! currentLink h = Some EmptyString
  ∧ σ' !! defaultCode h = Some defaultCodeSample
  ∧ ∀ l, l ∉ refs h → σ' !! l = σ !! l.
Proof.
  unfold useEditor, ref. cbn.
  set (l1 := fresh (dom σ)).
  set (σ1 := <[l1 := "html"]> σ).
  set (l2 := fresh (dom σ1)).
  set (σ2 := <[l2 := "vs-dark"]> σ1).
  set (l3 := fresh (dom σ2)).
  set (σ3 := <[l3 := EmptyString]> σ2).
  set (l4 := fresh (dom σ3)).
  assert (H1 : l1 ∉ dom σ) by apply is_fresh.
  assert (H2 : l2 ∉ dom σ1) by apply is_fresh.
  assert (H3 : l3 ∉ dom σ2) by apply is_fresh.
  assert (H4 : l4 ∉ dom σ3) by apply is_fresh.
  unfold σ3 in H4. unfold σ2 in H3, H4. unfold σ1 in H2, H3, H4.
  rewrite !dom_insert_L in H2, H3, H4.
  assert (l2 ≠ l1 ∧ l3 ≠ l1 ∧ l3 ≠ l2 ∧ l4 ≠ l1 ∧ l4 ≠ l2 ∧ l4 ≠ l3)
    as (N21 & N31 & N32 & N41 & N42 & N43) by set_solver.
  assert ((l2 ∉ dom σ) ∧ (l3 ∉ dom σ) ∧ (l4 ∉ dom σ)) as (D2 & D3 & D4)
    by set_solver.
  unfold refs. cbn. repeat split.
  - repeat constructor; by apply (not_elem_of_dom (D := gset loc)).
  - repeat (apply NoDup_cons; split); [..|apply NoDup_nil_2];
      rewrite ?elem_of_cons, ?elem_of_nil; intuition congruence.
  - unfold σ3, σ2, σ1. by simplify_map_eq.
  - unfold σ3, σ2, σ1. by simplify_map_eq.
  - unfold σ3, σ2, σ1. by simplify_map_eq.
  - by simplify_map_eq.
  - intros l Hl. unfold σ3, σ2, σ1.
    rewrite !lookup_insert_ne; [done | set_solver ..].
Qed.

(** A setter writes its own target and no other cell. *)
Lemma call_target h op σ :
  call toLowerCase h op σ !! target h op = Some (written toLowerCase op).
Proof. destruct op; apply lookup_insert_eq. Qed.

Lemma call_frame h op σ l :
  l ∉ refs h → call toLowerCase h op σ !! l = σ !! l.
Proof.
  intros Hl. unfold refs in Hl.
  destruct op; cbn; apply lookup_insert_ne; set_solver.
Qed.

(** C1, as the specification states it, fails: the component calls
    [useEditor], the host page calls it again, the first handle sets the
    theme to "Light", and the second handle still reads "vs-dark". *)
Lemma useEditor_shared_counterexample :
  let r1 := useEditor ∅ in
  let r2 := useEditor r1.2 in
  let σ := setTheme r1.1 "Light" r2.2 in
  σ !! currentTheme r1.1 = Some "vs"
  ∧ σ !! currentTheme r2.1 = Some "vs-dark"
  ∧ currentTheme r1.1 ≠ currentTheme r2.1.
Proof. vm_compute. by repeat split. Qed.

Lemma later_dom σ s : later toLowerCase σ s → dom σ ⊆ dom s.
Proof.
  induction 1 as [|s h op _ IH|s _ IH]; [done| |].
  - transitivity (dom s); [exact IH|].
    destruct op; cbn; unfold setLanguage, setTheme, setLink, setCode;
      rewrite dom_insert_L; apply union_subseteq_r.
  - transitivity (dom s); [exact IH|].
    unfold useEditor, ref. cbn. rewrite !dom_insert_L.
    do 4 (etrans; [|apply union_subseteq_r]). done.
Qed.

(** C1, amended: every call of [useEditor] makes a state of its own.  Take
    any call and any later call, whatever setters were called and
    whatever further state containers were made in between.  The refs of
    the two handles are disjoint; a call of any setter of one handle, in
    any store, is read back through that handle and changes nothing that
    the other handle reads. *)
Theorem useEditor_own_state σ s :
  later toLowerCase (useEditor σ).2 s →
  let h1 := (useEditor σ).1 in
  let h2 := (useEditor s).1 in
  Forall (λ l, l ∉ refs h2) (refs h1)
  ∧ ∀ op s',
      call toLowerCase h1 op s' !! target h1 op
        = Some (written toLowerCase op)
      ∧ call toLowerCase h2 op s' !! target h2 op
        = Some (written toLowerCase op)
      ∧ Forall (λ l, call toLowerCase h1 op s' !! l = s' !! l) (refs h2)
      ∧ Forall (λ l, call toLowerCase h2 op s' !! l = s' !! l) (refs h1).
Proof.
  intros Hl h1 h2. apply later_dom in Hl.
  destruct (useEditor_alloc σ) as (_ & _ & L1 & T1 & K1 & C1 & _).
  destruct (useEditor_alloc s) as (F2 & _).
  fold h1 in L1, T1, K1, C1. fold h2 in F2.
  assert (D : Forall (λ l, l ∉ refs h2) (refs h1)).
  { unfold refs at 2. repeat constructor; intros Hin;
      (eapply Forall_forall in F2; [|exact Hin]);
      apply (not_elem_of_dom (D := gset loc)) in F2; apply F2, Hl;
      apply elem_of_dom; eauto. }
  split; [exact D|].
  intros op s'. repeat split; try apply call_target.
  - apply Forall_forall. intros l Hin. apply call_frame. intros Hl1.
    eapply Forall_forall in D; [|exact Hl1]. done.
  - apply Forall_forall. intros l Hin. apply call_frame. intros Hl2.
    eapply Forall_forall in D; [|exact Hin]. done.
Qed.

(** C2: [setTheme] stores "vs-dark" for the literal "Dark" and "vs" for
    every other string, "dark" and "Light" among them; it is total. *)
Theorem setTheme_dark_or_light h (name : string) σ :
  setTheme h name σ !! currentTheme h
    = Some (if decide (name = "Dark") then "vs-dark" else "vs")
  ∧ setTheme h "Dark" σ !! currentTheme h = Some "vs-dark"
  ∧ setTheme h "dark" σ !! currentTheme h = Some "vs"
  ∧ setTheme h "Light" σ !! currentTheme h = Some "vs".
Proof.
  unfold setTheme. rewrite !lookup_insert_eq. repeat split.
  destruct (decide (name = "Dark")) as [->|Hne]; [done|].
  by apply String.eqb_neq in Hne as ->.
Qed.

(** C3: after [setLanguage(L)] the stored language is [L.toLowerCase()],
    for every string [L]; [setLanguage] is total. *)
Theorem setLanguage_lowercases h (L : string) σ :
  setLanguage toLowerCase h L σ !! currentLanguage h = Some (toLowerCase L).
Proof. apply lookup_insert_eq. Qed.

(** C4: after [setCode(T)] the stored code is [T] itself, for every text
    [T]; the empty text and a text of several lines are instances. *)
Theorem setCode_identity h (T : string) σ :
  setCode h T σ !! defaultCode h = Some T
  ∧ setCode h EmptyString σ !! defaultCode h = Some EmptyString
  ∧ setCode h defaultCodeSample σ !! defaultCode h = Some defaultCodeSample.
Proof. unfold setCode. by rewrite !lookup_insert_eq. Qed.

(** C9: what a handle reads right after [useEditor] made it, in any
    store: language "html", theme "vs-dark", an empty link and the HTML
    sample of the source (18 lines, 430 characters) as code. *)
Theorem useEditor_initial_state σ :
  let h := (useEditor σ).1 in
  let σ' := (useEditor σ).2 in
  σ' !! currentLanguage h = Some "html"
  ∧ σ' !! currentTheme h = Some "vs-dark"
  ∧ σ' !! currentLink h = Some EmptyString
  ∧ σ' !! defaultCode h = Some defaultCodeSample
  ∧ String.length defaultCodeSample = 430.
Proof.
  intros h σ'.
  destruct (useEditor_alloc σ) as (_ & _ & L & T & K & C & _).
  fold h σ' in L, T, K, C. repeat split; done.
Qed.

End ContainerFacts.

(** ** The editor panel *)

Section ShareFacts.

Implicit Types (d : Document) (w : World) (node : Node) (c : Component).

Lemma filter_others node (ns : list Node) :
  Forall (λ n, nodeId n < nodeId node) ns →
  List.filter (λ n, negb (isNode node n)) ns = ns.
Proof.
  induction 1 as [|n ns Hn _ IH]; [done|]. cbn. unfold isNode at 1.
  destruct (Nat.eqb_spec (nodeId n) (nodeId node)) as [Heq|_]; [lia|].
  cbn. by rewrite IH.
Qed.

Lemma filter_last node (ns : list Node) :
  Forall (λ n, nodeId n < nodeId node) ns →
  List.filter (λ n, negb (isNode node n)) (ns ++ [node]) = ns.
Proof.
  intros Hns. rewrite List.filter_app, (filter_others _ _ Hns). cbn.
  unfold isNode. rewrite Nat.eqb_refl. cbn. apply app_nil_r.
Qed.

Lemma attached_last node (ns : list Node) :
  existsb (isNode node) (ns ++ [node]) = true.
Proof.
  rewrite existsb_app. cbn. unfold isNode at 2. rewrite Nat.eqb_refl.
  by rewrite orb_true_r.
Qed.

Lemma find_last node (ns : list Node) :
  Forall (λ n, nodeId n < nodeId node) ns →
  List.find (λ n, Nat.eqb (nodeId n) (nodeId node)) (ns ++ [node]) = Some node.
Proof.
  induction 1 as [|n ns Hn _ IH]; cbn.
  - by rewrite Nat.eqb_refl.
  - destruct (Nat.eqb_spec (nodeId n) (nodeId node)) as [Heq|_]; [lia|done].
Qed.

Ltac run_world :=
  cbn -[isNode List.filter existsb List.find setValue].

Lemma shareCode_fallback_run br c ed w :
  editor c = Some ed →
  writeTextOutcome br = WriteRejects ∨ writeTextOutcome br = ClipboardAbsent →
  dom_wf (document w) →
  shareCode br c w
    = (Returned (), afterFallback br (writeError br) (getValue ed) w).
Proof.
  intros Hed Hw Hwf. unfold shareCode, afterFallback, writeError. rewrite Hed.
  destruct w as [[nn bd ae sel ls] cb al co me].
  unfold dom_wf in Hwf. cbn in Hwf.
  set (ta := setValue (mkNode nn "textarea" EmptyString) (getValue ed)).
  assert (Hta : Forall (λ n, nodeId n < nodeId ta) bd) by exact Hwf.
  unfold mbind, Eff_bind, tryCatch, writeText, execCommandCopy.
  destruct Hw as [-> | ->]; destruct (execCopyOutcome br).
  all: run_world; fold ta.
  all: unfold removeChild, attached, selectedText.
  all: repeat first
         [ rewrite (filter_others _ _ Hta)
         | rewrite (filter_last _ _ Hta)
         | rewrite attached_last
         | rewrite (find_last _ _ Hta)
         | progress run_world ].
  all: unfold modify, withDocument, dropRef; cbn.
  all: by rewrite ?Nat.eqb_refl, ?(filter_last _ _ Hta), ?app_nil_r.
Qed.

(** C5: when the clipboard write fails, because the promise rejects or
    because there is no clipboard API, the share action returns, shows
    exactly one notification (the success text when the legacy copy
    command returned, the failure text when it threw), has created exactly
    one element, and leaves the children of the document body as they were.
    When the legacy command copied, the clipboard holds the code: the
    field with the code was in the document and selected at that time. *)
Theorem shareCode_fallback br c ed w :
  editor c = Some ed →
  writeTextOutcome br = WriteRejects ∨ writeTextOutcome br = ClipboardAbsent →
  dom_wf (document w) →
  let r := shareCode br c w in
  r.1 = Returned ()
  ∧ (∃ message, alerts r.2 = (alerts w ++ [message])%list
       ∧ (execCopyOutcome br = CopyReturnsTrue →
            message = copied ∧ clipboard r.2 = Some (getValue ed))
       ∧ (execCopyOutcome br = CopyThrows → message = copyFailed))
  ∧ nextNode (document r.2) = S (nextNode (document w))
  ∧ body (document r.2) = body (document w).
Proof.
  intros Hed Hw Hwf r. unfold r.
  rewrite (shareCode_fallback_run _ _ _ _ Hed Hw Hwf). cbn.
  repeat split.
  eexists. split; [reflexivity|]. split; intros ->; done.
Qed.

(** C6: when the clipboard write resolves, the share action returns,
    shows exactly one notification, the success text, and the document is
    what it was: no element was created ([nextNode] counts them), none was
    added or removed.  The clipboard holds the code. *)
Theorem shareCode_clipboard_ok br c ed w :
  editor c = Some ed →
  writeTextOutcome br = WriteResolves →
  let r := shareCode br c w in
  r.1 = Returned ()
  ∧ alerts r.2 = (alerts w ++ [copied])%list
  ∧ document r.2 = document w
  ∧ clipboard r.2 = Some (getValue ed).
Proof.
  intros Hed Hw r. unfold r, shareCode. rewrite Hed.
  unfold mbind, Eff_bind, tryCatch, writeText. rewrite Hw. by cbn.
Qed.

(** C10: without an editor instance the share action does nothing at
    all: it returns, and the world (clipboard, document, notifications,
    console) is the one it started in. *)
Theorem shareCode_without_editor br c w :
  editor c = None →
  shareCode br c w = (Returned (), w).
Proof. intros Hed. unfold shareCode. by rewrite Hed. Qed.

(** A mount whose widget construction throws leaves the component without
    an editor instance. *)
Lemma onMounted_create_throws br (editorContainer : bool) c σ w :
  monacoCreateOutcome br = CreateThrows →
  (onMounted br editorContainer c σ w).1 = Returned c.
Proof.
  intros Hc. unfold onMounted, monacoCreate. rewrite Hc.
  by destruct editorContainer.
Qed.

Lemma onMounted_configures_workers br c σ w :
  MonacoEnvironment (onMounted br true c σ w).2 = Some getWorkerUrl.
Proof. unfold onMounted, monacoCreate. by destruct (monacoCreateOutcome br). Qed.

End ShareFacts.

Section MenuFacts.

Variable toLowerCase : string → string.
Hypothesis toLowerCase_idem : ∀ s, toLowerCase (toLowerCase s) = toLowerCase s.

Implicit Types (d : Document) (c : Component) (σ : gmap loc string).


End MenuFacts.


(** C8: the mount installs [getWorkerUrl] as the worker-loading strategy;
    it gives json, css/scss/less, html/handlebars/razor and
    typescript/javascript their worker scripts, and every other label the
    generic editor worker, whatever the module id. *)
Theorem getWorkerUrl_table (br : Browser) (c : Component)
    (σ : gmap loc string) (w : World) (moduleId : string) :
  MonacoEnvironment (onMounted br true c σ w).2 = Some getWorkerUrl
  ∧ getWorkerUrl moduleId "json" = "./vs/language/json/json.worker.js"
  ∧ getWorkerUrl moduleId "css" = "./vs/language/css/css.worker.js"
  ∧ getWorkerUrl moduleId "scss" = "./vs/language/css/css.worker.js"
  ∧ getWorkerUrl moduleId "less" = "./vs/language/css/css.worker.js"
  ∧ getWorkerUrl moduleId "html" = "./vs/language/html/html.worker.js"
  ∧ getWorkerUrl moduleId "handlebars" = "./vs/language/html/html.worker.js"
  ∧ getWorkerUrl moduleId "razor" = "./vs/language/html/html.worker.js"
  ∧ getWorkerUrl moduleId "typescript"
      = "./vs/language/typescript/ts.worker.js"
  ∧ getWorkerUrl moduleId "javascript"
      = "./vs/language/typescript/ts.worker.js"
  ∧ ∀ label : string,
      label ∉ workerLabels →
      getWorkerUrl moduleId label = "./vs/editor/editor.worker.js".
Proof.
  split; [apply onMounted_configures_workers|].
  repeat (split; [reflexivity|]).
  intros label Hl. unfold workerLabels in Hl. unfold getWorkerUrl.
  repeat match goal with
  | |- context [String.eqb label ?k] =>
      let E := fresh "E" in
      destruct (String.eqb_spec label k) as [E|_];
        [exfalso; apply Hl; rewrite E; set_solver|]
  end.
  done.
Qed.

Lemma getWorkerUrl_table_witness :
  ("python" ∉ workerLabels)
  ∧ getWorkerUrl "vs/editor" "python" = "./vs/editor/editor.worker.js".
Proof.
  assert (H : "python" ∉ workerLabels).
  { unfold workerLabels. intros Hin.
    repeat (apply elem_of_cons in Hin as [Hin|Hin]; [discriminate Hin|]).
    by apply elem_of_nil in Hin. }
  split; [exact H|].
  exact (proj2 (proj2 (proj2 (proj2 (proj2 (proj2 (proj2 (proj2 (proj2 (proj2
    (getWorkerUrl_table modernBrowser menusOpen ∅ pageWorld "vs/editor")))))))))) "python" H).
Defined.

(** On the example page without clipboard API: one success notification,
    the code on the clipboard and the two children of the body as before. *)
Lemma shareCode_fallback_witness :
  let r := shareCode legacyBrowser (mounted legacyBrowser) pageWorld in
  r.1 = Returned ()
  ∧ alerts r.2 = [copied]
  ∧ clipboard r.2 = Some defaultCodeSample
  ∧ nextNode (document r.2) = 4
  ∧ body (document r.2) = body pageDocument.
Proof.
  assert (Hed : editor (mounted legacyBrowser)
                = Some (mkWidget defaultCodeSample "html" "vs-dark"))
    by reflexivity.
  assert (Hw : writeTextOutcome legacyBrowser = WriteRejects
               ∨ writeTextOutcome legacyBrowser = ClipboardAbsent)
    by (right; reflexivity).
  assert (Hwf : dom_wf (document pageWorld))
    by (repeat constructor; cbn; lia).
  destruct (shareCode_fallback legacyBrowser (mounted legacyBrowser) _
              pageWorld Hed Hw Hwf) as (Hr & (m & Ha & Hm & _) & Hn & Hb).
  destruct (Hm eq_refl) as [-> Hc].
  repeat split; assumption.
Defined.

Lemma shareCode_clipboard_ok_witness :
  let r := shareCode modernBrowser (mounted modernBrowser) pageWorld in
  r.1 = Returned ()
  ∧ alerts r.2 = [copied]
  ∧ document r.2 = pageDocument
  ∧ clipboard r.2 = Some defaultCodeSample.
Proof.
  exact (shareCode_clipboard_ok modernBrowser (mounted modernBrowser)
           (mkWidget defaultCodeSample "html" "vs-dark") pageWorld
           eq_refl eq_refl).
Defined.

(** A mount in a browser where the widget cannot be built, then the share
    action: nothing happens. *)
Lemma shareCode_without_editor_witness :
  editor (mounted brokenBrowser) = None
  ∧ shareCode brokenBrowser (mounted brokenBrowser) pageWorld
    = (Returned (), pageWorld).
Proof.
  split; [reflexivity|].
  apply shareCode_without_editor. reflexivity.
Defined.

(** * Further properties *)

(** ** The state container *)

Section ContainerMore.

Variable toLowerCase : string → string.

Implicit Types (σ s : gmap loc string) (h : Handle) (l : loc).

(** X1: [useEditor] adds exactly its four refs to the store, each of them
    absent before and all of them different, and changes no cell that the
    store had. *)
Theorem useEditor_extends_store σ :
  let h := (useEditor σ).1 in
  let σ' := (useEditor σ).2 in
  dom σ' = dom σ ∪ list_to_set (refs h)
  ∧ NoDup (refs h)
  ∧ Forall (λ l, l ∉ dom σ) (refs h)
  ∧ ∀ l, l ∈ dom σ → σ' !! l = σ !! l.
Proof.
  intros h σ'.
  destruct (useEditor_alloc σ) as (F & N & _ & _ & _ & _ & K).
  fold h σ' in F, N, K.
  assert (F' : Forall (λ l, l ∉ dom σ) (refs h)).
  { eapply Forall_impl; [exact F|]. intros l Hl.
    by apply (not_elem_of_dom (D := gset loc)). }
  repeat split; [|done|done|].
  - unfold σ', h, useEditor, ref, refs. cbn.
    rewrite !dom_insert_L. set_solver.
  - intros l Hl. apply K. intros Hin.
    eapply Forall_forall in F'; [|exact Hin]. done.
Qed.

Lemma target_sameField h op op' :
  NoDup (refs h) →
  target h op' = target h op ↔ sameField op op' = true.
Proof.
  unfold refs. rewrite !NoDup_cons, !elem_of_cons, !elem_of_nil.
  intros (N1 & N2 & N3 & _).
  destruct op, op'; cbn; split; try done; intros E; exfalso;
    intuition congruence.
Qed.

(** X2: with a handle of [useEditor], in any store, a setter is read back
    through its own field and through no other field of the handle. *)
Theorem setter_read_back σ (op op' : SetterCall) s :
  let h := (useEditor σ).1 in
  call toLowerCase h op s !! target h op'
    = if sameField op op' then Some (written toLowerCase op)
      else s !! target h op'.
Proof.
  intros h.
  destruct (useEditor_alloc σ) as (_ & N & _). fold h in N.
  pose proof (target_sameField h op op' N) as E.
  destruct (sameField op op').
  - rewrite (proj2 E eq_refl). apply call_target.
  - assert (Hne : target h op ≠ target h op').
    { intros Heq. symmetry in Heq. by apply E in Heq. }
    destruct op; cbn; by apply lookup_insert_ne.
Qed.

(** X3: with a handle of [useEditor], of two setter calls on the same
    field the later one wins, and two calls on different fields can be
    exchanged. *)
Theorem setter_compose σ (op1 op2 : SetterCall) s :
  let h := (useEditor σ).1 in
  call toLowerCase h op2 (call toLowerCase h op1 s)
    = if sameField op1 op2 then call toLowerCase h op2 s
      else call toLowerCase h op1 (call toLowerCase h op2 s).
Proof.
  intros h.
  destruct (useEditor_alloc σ) as (_ & N & _). fold h in N.
  pose proof (target_sameField h op1 op2 N) as E.
  assert (C : ∀ op x, call toLowerCase h op x
                      = <[target h op := written toLowerCase op]> x)
    by (by intros []).
  rewrite !C. destruct (sameField op1 op2).
  - rewrite (proj2 E eq_refl). apply insert_insert_eq.
  - apply insert_insert_ne. intros Heq. by apply E in Heq.
Qed.

(** X4: [setTheme] takes the names of the menu, not the identifiers it
    stores: given back what it stored, "vs-dark" as well as "vs", it
    stores the light theme. *)
Theorem setTheme_of_stored_is_light h (name : string) σ :
  let σ1 := setTheme h name σ in
  setTheme h (deref σ1 (currentTheme h)) σ1 !! currentTheme h = Some "vs".
Proof.
  cbn. unfold setTheme, deref. rewrite !lookup_insert_eq. cbn.
  by destruct (String.eqb name "Dark").
Qed.

End ContainerMore.

(** ** The menus *)

Ltac run_mount :=
  unfold onMounted, monacoCreate, mbind, mret, Eff_bind, Eff_ret, tryCatch,
    throw, setMonacoEnvironment, consoleWrite, addClickListener, modify,
    withDocument;
  cbn.

Section MenusMore.

Implicit Types (d : Document) (c : Component) (σ : gmap loc string).

(** X5: a click on an option of the theme menu stores "vs-dark" for
    "Dark" and "vs" for any other option, closes the theme menu and leaves
    the flag of the language menu and the widget as they were, whatever
    listens on the document. *)
Theorem clickThemeOption_selects (thm : string) d c σ :
  let r := clickThemeOption thm d c σ in
  r.2 !! currentTheme (editorStore r.1)
    = Some (if decide (thm = "Dark") then "vs-dark" else "vs")
  ∧ showThemes r.1 = false
  ∧ showLanguages r.1 = showLanguages c
  ∧ editor r.1 = editor c
  ∧ editorStore r.1 = editorStore c.
Proof.
  cbn. unfold setTheme. rewrite lookup_insert_eq. repeat split.
  destruct (decide (thm = "Dark")) as [->|Hne]; [done|].
  by apply String.eqb_neq in Hne as ->.
Qed.

(** X6: after a click on an option of the theme menu the panel shows that
    choice: the button reads "Dark" for the option "Dark" and "Light" for
    any other, the background is the dark or the light colour, exactly the
    option of that name is highlighted, and setting the theme to what the
    button reads changes nothing. *)
Theorem theme_shown_after_pick (thm : string) d c σ :
  let r := clickThemeOption thm d c σ in
  let shown := if decide (thm = "Dark") then "Dark" else "Light" in
  themeLabel r.1 r.2 = shown
  ∧ dynamicColor r.1 r.2
      = (if decide (thm = "Dark") then "#1e1e1e" else "#fff")
  ∧ (∀ t : string, themeHighlighted t r.1 r.2 = bool_decide (t = shown))
  ∧ setTheme (editorStore r.1) (themeLabel r.1 r.2) r.2 = r.2.
Proof.
  cbn. unfold themeLabel, dynamicColor, themeHighlighted, deref, setTheme.
  cbn. rewrite !lookup_insert_eq. cbn.
  destruct (decide (thm = "Dark")) as [->|Hne].
  - cbn. repeat split.
    + intros t. rewrite andb_true_r, andb_false_r, orb_false_r.
      destruct (String.eqb_spec t "Dark") as [->|Ht]; [done|].
      by rewrite bool_decide_eq_false_2.
    + by rewrite insert_insert_eq.
  - apply String.eqb_neq in Hne. rewrite Hne. cbn. repeat split.
    + intros t. rewrite andb_true_r, andb_false_r. cbn.
      destruct (String.eqb_spec t "Light") as [->|Ht]; [done|].
      by rewrite bool_decide_eq_false_2.
    + by rewrite insert_insert_eq.
Qed.

(** X7: the two menu buttons flip their own flag and nothing else, so the
    two menus open and close independently; a second click undoes the
    first, and clicks on the two buttons can be exchanged.  What listens on
    the document plays no part. *)
Theorem toggles_independent d c :
  (showLanguages (clickLanguageToggle d c) = negb (showLanguages c)
   ∧ showThemes (clickLanguageToggle d c) = showThemes c)
  ∧ (showThemes (clickThemeToggle d c) = negb (showThemes c)
     ∧ showLanguages (clickThemeToggle d c) = showLanguages c)
  ∧ clickLanguageToggle d (clickLanguageToggle d c) = c
  ∧ clickThemeToggle d (clickThemeToggle d c) = c
  ∧ clickLanguageToggle d (clickThemeToggle d c)
    = clickThemeToggle d (clickLanguageToggle d c).
Proof.
  destruct c as [h ed sl st]. cbn. by rewrite !negb_involutive.
Qed.

Lemma listeners_close (ls : list Listener) c :
  ls ≠ [] →
  foldl (λ c l, runListener l c) c ls = closeDropdowns c.
Proof.
  intros Hne. destruct ls as [|[] ls]; [done|]. clear Hne. cbn.
  assert (H : ∀ c', closeDropdowns (closeDropdowns c') = closeDropdowns c')
    by done.
  generalize (closeDropdowns c) (H c). clear c H.
  induction ls as [|[] ls IH]; intros c' Hc'; cbn; [done|].
  rewrite Hc'. by apply IH.
Qed.

Lemma onMounted_listens br (editorContainer : bool) c σ w :
  CloseDropdowns
  ∈ clickListeners (document (onMounted br editorContainer c σ w).2).
Proof.
  run_mount.
  destruct editorContainer, (monacoCreateOutcome br); cbn;
    apply elem_of_app; right; constructor.
Qed.

(** X8: once the panel is mounted, in any browser and with or without
    its container, a click outside the menus closes both menus and changes
    neither the widget nor the state container of the component; on a
    document without click listeners the same click changes nothing. *)
Theorem clickOutside_after_mount br (editorContainer : bool) c0 σ w c d :
  let w' := (onMounted br editorContainer c0 σ w).2 in
  clickOutside (document w') c = closeDropdowns c
  ∧ showLanguages (clickOutside (document w') c) = false
  ∧ showThemes (clickOutside (document w') c) = false
  ∧ editor (clickOutside (document w') c) = editor c
  ∧ editorStore (clickOutside (document w') c) = editorStore c
  ∧ (clickListeners d = [] → clickOutside d c = c).
Proof.
  intros w'.
  assert (E : clickOutside (document w') c = closeDropdowns c).
  { unfold clickOutside, documentClick. cbn. apply listeners_close.
    intros Hnil. pose proof (onMounted_listens br editorContainer c0 σ w) as Hin.
    fold w' in Hin. rewrite Hnil in Hin. by apply elem_of_nil in Hin. }
  rewrite E. repeat split.
  intros Hd. unfold clickOutside, documentClick. cbn. by rewrite Hd.
Qed.

End MenusMore.

Section LanguagesMore.

Variable toLowerCase : string → string.
Hypothesis toLowerCase_idem : ∀ s, toLowerCase (toLowerCase s) = toLowerCase s.

Implicit Types (d : Document) (c : Component) (σ : gmap loc string).

Lemma find_by_key (f : string → string) (x : string) (xs : list string) :
  In x xs →
  NoDup (map f xs) →
  List.find (λ y, String.eqb (f y) (f x)) xs = Some x.
Proof.
  induction xs as [|y xs IH]; [done|].
  intros Hin Hnd. cbn in Hnd. apply NoDup_cons in Hnd as [Hy Hnd]. cbn.
  destruct (String.eqb_spec (f y) (f x)) as [Heq|Hne].
  - destruct Hin as [->|Hin]; [done|]. exfalso. apply Hy.
    rewrite Heq. apply list_elem_of_fmap. exists x.
    split; [done|]. by apply list_elem_of_In.
  - destruct Hin as [->|Hin]; [done|]. by apply IH.
Qed.

Lemma stored_after_pick (lang : string) d c σ :
  let r := clickLanguageOption toLowerCase lang d c σ in
  deref r.2 (currentLanguage (editorStore r.1)) = toLowerCase lang.
Proof.
  cbn. unfold deref, setLanguage.
  by rewrite lookup_insert_eq, toLowerCase_idem.
Qed.

(** X9: let the options of the language menu differ in lower case and let
    [lang] be one of them, not empty.  After a click on it the button of
    the menu reads [lang] as the list spells it, and of all options
    exactly [lang] is highlighted. *)
Theorem language_shown_after_pick (availableLanguages : list string)
    (lang : string) d c σ :
  In lang availableLanguages →
  NoDup (map toLowerCase availableLanguages) →
  lang ≠ EmptyString →
  let r := clickLanguageOption toLowerCase lang d c σ in
  languageLabel toLowerCase availableLanguages r.1 r.2 = lang
  ∧ Forall (λ other, languageHighlighted toLowerCase other r.1 r.2
                     = bool_decide (other = lang)) availableLanguages.
Proof.
  intros Hin Hnd Hne r.
  pose proof (stored_after_pick lang d c σ) as Hst. fold r in Hst.
  unfold languageLabel, languageHighlighted. rewrite Hst. split.
  - rewrite (find_by_key _ _ _ Hin Hnd). by destruct lang.
  - apply Forall_forall. intros other Ho.
    destruct (String.eqb_spec (toLowerCase other) (toLowerCase lang))
      as [Heq|Hneq]; case_bool_decide as Hd; try done.
    + exfalso. apply Hd. apply list_elem_of_In in Ho.
      pose proof (find_by_key toLowerCase other _ Ho Hnd) as F1.
      pose proof (find_by_key toLowerCase lang _ Hin Hnd) as F2.
      rewrite Heq in F1. congruence.
    + by subst.
Qed.

(** X10: when no option of the language menu is, in lower case, the stored
    language, the button of the menu reads the stored language itself and
    no option is highlighted. *)
Theorem language_shown_unlisted (availableLanguages : list string) c σ :
  Forall (λ lang, toLowerCase lang
                  ≠ deref σ (currentLanguage (editorStore c)))
    availableLanguages →
  languageLabel toLowerCase availableLanguages c σ
    = deref σ (currentLanguage (editorStore c))
  ∧ Forall (λ lang, languageHighlighted toLowerCase lang c σ = false)
      availableLanguages.
Proof.
  intros Hall. unfold languageLabel, languageHighlighted. split.
  - induction Hall as [|x xs Hx _ IH]; [done|]. cbn.
    apply String.eqb_neq in Hx. by rewrite Hx.
  - eapply Forall_impl; [exact Hall|]. intros x Hx.
    by apply String.eqb_neq.
Qed.

End LanguagesMore.

(** ** Mount and unmount *)

Section MountMore.

Implicit Types (d : Document) (w : World) (c : Component)
  (σ : gmap loc string).

(** X11: the mount hook returns in every browser, with or without its
    container: a failure of the widget does not leave the hook.  It
    registers the click listener in each case, keeps the state container
    and the menu flags of the component, and touches neither the children
    of the body nor the clipboard nor the notifications.  Without a
    container it leaves the component, the console and the worker
    strategy as they were. *)
Theorem onMounted_returns br (editorContainer : bool) c σ w :
  let r := onMounted br editorContainer c σ w in
  (∃ c', r.1 = Returned c'
         ∧ editorStore c' = editorStore c
         ∧ showLanguages c' = showLanguages c
         ∧ showThemes c' = showThemes c)
  ∧ CloseDropdowns ∈ clickListeners (document r.2)
  ∧ body (document r.2) = body (document w)
  ∧ nextNode (document r.2) = nextNode (document w)
  ∧ clipboard r.2 = clipboard w
  ∧ alerts r.2 = alerts w
  ∧ (editorContainer = false →
       r.1 = Returned c
       ∧ console r.2 = console w
       ∧ MonacoEnvironment r.2 = MonacoEnvironment w).
Proof.
  intros r.
  split; [|split; [apply onMounted_listens|]]; unfold r; run_mount;
    destruct editorContainer, (monacoCreateOutcome br); cbn;
    repeat split; try discriminate; by eexists.
Qed.

(** X12: when the construction of the widget throws, the component is
    left as it was, without widget; the console gets one error entry, and
    the worker strategy, set before the construction, stays installed. *)
Theorem onMounted_create_failed br c σ w :
  monacoCreateOutcome br = CreateThrows →
  let r := onMounted br true c σ w in
  r.1 = Returned c
  ∧ console r.2
    = (console w
         ++ [ConsoleError "Failed to initialize Monaco Editor:" MonacoError])%list
  ∧ MonacoEnvironment r.2 = Some getWorkerUrl.
Proof. intros Hc r. unfold r. run_mount. by rewrite Hc. Qed.

(** X13: when the construction succeeds, the component holds a widget
    that shows the code, the language and the theme of its state
    container; nothing is written to the console. *)
Theorem onMounted_shows_store br c σ w :
  monacoCreateOutcome br = CreateReturns →
  let r := onMounted br true c σ w in
  ∃ c', r.1 = Returned c'
        ∧ is_Some (editor c')
        ∧ in_sync c' σ
        ∧ console r.2 = console w.
Proof.
  intros Hc r. unfold r. run_mount. rewrite Hc. cbn.
  eexists. split; [reflexivity|]. by repeat split.
Qed.

End MountMore.

(** ** The widget and the state container *)

Section EditMore.

Implicit Types (d : Document) (w : World) (c : Component)
  (σ : gmap loc string) (ev : UserEvent).

(** X15: after an edit the state container holds what the widget holds,
    that is what [getValue()] returns, and the share action then copies
    that text; language and theme of the widget are not touched. *)
Theorem buffer_is_stored_and_shared br (buffer : string) c ed σ w :
  editor c = Some ed →
  writeTextOutcome br = WriteResolves →
  let r := editBuffer buffer c σ in
  r.2 !! defaultCode (editorStore r.1) = getValue <$> editor r.1
  ∧ clipboard (shareCode br r.1 w).2 = getValue <$> editor r.1
  ∧ editor r.1
    = Some {| value := buffer; language := language ed; theme := theme ed |}.
Proof.
  intros Hed Hw r. unfold r, editBuffer, contentChanged, shareCode.
  rewrite Hed. cbn. unfold setCode. rewrite lookup_insert_eq.
  unfold mbind, Eff_bind, tryCatch, writeText. by rewrite Hw.
Qed.

End EditMore.

Section SyncMore.

Variable resolveLanguage : string → string.
Variable resolveTheme : string → string.

Implicit Types (d : Document) (w : World) (c : Component)
  (σ : gmap loc string) (ev : UserEvent).

(** X16: on a component whose widget follows the store the two watch
    effects change nothing.  After any change of the store they make the
    widget show what it makes of the stored language and of the stored
    theme, and keep its text, the menu flags and the state container; run
    once more, they change nothing. *)
Theorem runEffects_settle c σ :
  follows resolveLanguage resolveTheme c σ →
  runEffects resolveLanguage resolveTheme c σ = c
  ∧ ∀ σ',
      let c' := runEffects resolveLanguage resolveTheme c σ' in
      language <$> editor c'
        = (λ _, resolveLanguage (deref σ' (currentLanguage (editorStore c))))
            <$> editor c
      ∧ theme <$> editor c'
        = (λ _, resolveTheme (deref σ' (currentTheme (editorStore c))))
            <$> editor c
      ∧ value <$> editor c' = value <$> editor c
      ∧ editorStore c' = editorStore c
      ∧ showLanguages c' = showLanguages c
      ∧ showThemes c' = showThemes c
      ∧ runEffects resolveLanguage resolveTheme c' σ' = c'.
Proof.
  intros Hs. unfold follows in Hs.
  unfold runEffects, languageEffect, themeEffect.
  destruct c as [h [[v l t]|] sl st]; cbn in *; [|done].
  destruct Hs as (_ & -> & ->). done.
Qed.

End SyncMore.

Section DispatchMore.

Variable toLowerCase : string → string.

Implicit Types (d : Document) (w : World) (c : Component)
  (σ : gmap loc string) (ev : UserEvent).

Lemma listeners_keep (ls : list Listener) c :
  editor (foldl (λ c l, runListener l c) c ls) = editor c
  ∧ editorStore (foldl (λ c l, runListener l c) c ls) = editorStore c.
Proof.
  revert c. induction ls as [|[] ls IH]; intros c; [done|]. cbn.
  destruct (IH (closeDropdowns c)) as [-> ->]. done.
Qed.

(** One event: the state container of the component stays, and a widget
    that held the code of the store still does. *)
Lemma dispatch_keeps ev d c σ :
  NoDup (refs (editorStore c)) →
  let r := dispatch toLowerCase ev d c σ in
  editorStore r.1 = editorStore c
  ∧ (is_Some (editor r.1) ↔ is_Some (editor c))
  ∧ (value <$> editor c
       = (λ _, deref σ (defaultCode (editorStore c))) <$> editor c →
     value <$> editor r.1
       = (λ _, deref r.2 (defaultCode (editorStore c))) <$> editor r.1).
Proof.
  unfold refs. rewrite !NoDup_cons, !elem_of_cons, !elem_of_nil.
  intros (N1 & N2 & N3 & _).
  destruct ev; cbn.
  - (* an edit *)
    unfold editBuffer, contentChanged.
    destruct c as [h [ed|] sl st]; cbn; [|done].
    unfold setCode, deref. cbn. rewrite lookup_insert_eq.
    repeat split; eauto.
  - done.
  - done.
  - (* an option of the language menu *)
    repeat split; try done. intros Hv. rewrite Hv.
    unfold deref, setLanguage. rewrite lookup_insert_ne; [done|].
    intuition congruence.
  - (* an option of the theme menu *)
    repeat split; try done. intros Hv. rewrite Hv.
    unfold deref, setTheme. rewrite lookup_insert_ne; [done|].
    intuition congruence.
  - (* a click outside *)
    unfold clickOutside, documentClick. cbn.
    destruct (listeners_keep (clickListeners d) c) as [-> ->]. done.
Qed.

End DispatchMore.

Section TurnsMore.

Variable toLowerCase : string → string.
Variable resolveLanguage : string → string.
Variable resolveTheme : string → string.

Implicit Types (d : Document) (w : World) (c : Component)
  (σ : gmap loc string) (ev : UserEvent).

Lemma turn_keeps ev d c σ :
  NoDup (refs (editorStore c)) →
  follows resolveLanguage resolveTheme c σ →
  let r := turn toLowerCase resolveLanguage resolveTheme d (c, σ) ev in
  editorStore r.1 = editorStore c
  ∧ (is_Some (editor r.1) ↔ is_Some (editor c))
  ∧ follows resolveLanguage resolveTheme r.1 r.2.
Proof.
  intros N Hs. unfold turn. cbn [fst snd].
  destruct (dispatch_keeps toLowerCase ev d c σ N) as (Hst & Hed & Hv).
  destruct (dispatch toLowerCase ev d c σ) as [c1 σ1]. cbn in *.
  assert (Hv1 : value <$> editor c1
                = (λ _, deref σ1 (defaultCode (editorStore c))) <$> editor c1).
  { apply Hv. unfold follows in Hs.
    destruct (editor c) as [ed|]; [|done]. cbn.
    destruct Hs as (Hv0 & _). by rewrite Hv0. }
  unfold runEffects, languageEffect, themeEffect, follows.
  destruct c1 as [h1 [[v l t]|] sl st]; cbn in *; subst h1.
  - injection Hv1 as Hv1. repeat split; try done.
    intros _. apply Hed. eauto.
  - done.
Qed.

(** X17: let the four refs of the component's state container differ and
    let its widget follow the store.  Then after every sequence of user
    events (edits, the two menu buttons, menu options of any name, clicks
    outside) the widget still follows the store: its text is the stored
    code, and it shows what it makes of the stored language and of the
    stored theme, plain text for a language it does not know.  The
    component keeps its state container, and it has a widget exactly if it
    had one. *)
Theorem turns_keep_sync (evs : list UserEvent) d c σ :
  NoDup (refs (editorStore c)) →
  follows resolveLanguage resolveTheme c σ →
  let r := turns toLowerCase resolveLanguage resolveTheme d evs (c, σ) in
  follows resolveLanguage resolveTheme r.1 r.2
  ∧ editorStore r.1 = editorStore c
  ∧ (is_Some (editor r.1) ↔ is_Some (editor c)).
Proof.
  unfold turns. revert c σ.
  induction evs as [|ev evs IH]; intros c σ N Hs; [done|].
  cbn [foldl].
  destruct (turn_keeps ev d c σ N Hs) as (Hst & Hed & Hs1).
  destruct (turn toLowerCase resolveLanguage resolveTheme d (c, σ) ev)
    as [c1 σ1]. cbn in *.
  rewrite <- Hst in N.
  destruct (IH c1 σ1 N Hs1) as (A & B & C).
  repeat split; [done|congruence|tauto|tauto].
Qed.

End TurnsMore.

Section ThemeMore.

Variable toLowerCase : string → string.
Variable resolveLanguage : string → string.
Variable resolveTheme : string → string.

Implicit Types (d : Document) (c : Component) (σ : gmap loc string).

Lemma runEffects_store c σ :
  editorStore (runEffects resolveLanguage resolveTheme c σ) = editorStore c.
Proof.
  unfold runEffects, languageEffect, themeEffect.
  by destruct c as [h [ed|] sl st].
Qed.

Lemma dispatch_theme ev d c σ :
  NoDup (refs (editorStore c)) →
  theme_known c σ →
  let r := dispatch toLowerCase ev d c σ in
  editorStore r.1 = editorStore c ∧ theme_known r.1 r.2.
Proof.
  intros N Ht r.
  destruct (dispatch_keeps toLowerCase ev d c σ N) as (Hst & _).
  fold r in Hst. split; [done|].
  unfold theme_known in *. rewrite Hst.
  unfold refs in N. rewrite !NoDup_cons, !elem_of_cons, !elem_of_nil in N.
  destruct N as (N1 & N2 & N3 & _).
  unfold r. destruct ev; cbn; try done.
  - unfold editBuffer, contentChanged.
    destruct c as [h [ed|] sl st]; cbn in *; [|done].
    unfold setCode. rewrite lookup_insert_ne; [done|]. intuition congruence.
  - unfold setLanguage. rewrite lookup_insert_ne; [done|].
    intuition congruence.
  - unfold setTheme. rewrite lookup_insert_eq.
    destruct (String.eqb thm "Dark"); eauto.
Qed.

Lemma turn_theme ev d c σ :
  NoDup (refs (editorStore c)) →
  theme_known c σ →
  let r := turn toLowerCase resolveLanguage resolveTheme d (c, σ) ev in
  editorStore r.1 = editorStore c ∧ theme_known r.1 r.2.
Proof.
  intros N Ht. unfold turn. cbn [fst snd].
  destruct (dispatch_theme ev d c σ N Ht) as (Hst & Ht1).
  destruct (dispatch toLowerCase ev d c σ) as [c1 σ1]. cbn in *.
  unfold theme_known in *. rewrite runEffects_store, Hst. by rewrite Hst in Ht1.
Qed.

(** X18: let the four refs of the component's state container differ and
    let the stored theme be "vs-dark" or "vs", as it is after [useEditor].
    Then after every sequence of user events the stored theme is still one
    of the two, and the button of the theme menu and the background agree:
    "Dark" on the dark colour or "Light" on the light one. *)
Theorem turns_keep_theme (evs : list UserEvent) d c σ :
  NoDup (refs (editorStore c)) →
  theme_known c σ →
  let r := turns toLowerCase resolveLanguage resolveTheme d evs (c, σ) in
  theme_known r.1 r.2
  ∧ ((themeLabel r.1 r.2 = "Dark" ∧ dynamicColor r.1 r.2 = "#1e1e1e")
     ∨ (themeLabel r.1 r.2 = "Light" ∧ dynamicColor r.1 r.2 = "#fff")).
Proof.
  intros N Ht r.
  assert (K : theme_known r.1 r.2).
  { unfold r, turns. clear r. revert c σ N Ht.
    induction evs as [|ev evs IH]; intros c σ N Ht; [done|].
    cbn [foldl].
    destruct (turn_theme ev d c σ N Ht) as (Hst & Ht1).
    destruct (turn toLowerCase resolveLanguage resolveTheme d (c, σ) ev)
      as [c1 σ1]. cbn in *.
    apply IH; [by rewrite Hst | done]. }
  split; [exact K|].
  unfold theme_known in K. unfold themeLabel, dynamicColor, deref.
  destruct K as [-> | ->]; cbn; eauto.
Qed.

End ThemeMore.

(** ** The share action *)

Section ShareMore.

Implicit Types (d : Document) (w : World) (c : Component).

(** X19: on a document whose elements were all created before, the share
    action returns whatever the browser does: no failure of the clipboard
    or of the legacy copy leaves the handler.  It shows no notification
    without a widget and exactly one with a widget, the failure text only
    when the clipboard write failed and the legacy copy threw.  The
    children of the body, the click listeners and the worker strategy are
    as before, and the document keeps the property it started with. *)
Theorem shareCode_always_returns br c w :
  dom_wf (document w) →
  let r := shareCode br c w in
  r.1 = Returned ()
  ∧ alerts r.2
    = (alerts w
         ++ match editor c, writeTextOutcome br, execCopyOutcome br with
            | None, _, _ => []
            | Some _, WriteResolves, _ => [copied]
            | Some _, _, CopyThrows => [copyFailed]
            | Some _, _, _ => [copied]
            end)%list
  ∧ body (document r.2) = body (document w)
  ∧ clickListeners (document r.2) = clickListeners (document w)
  ∧ MonacoEnvironment r.2 = MonacoEnvironment w
  ∧ dom_wf (document r.2).
Proof.
  intros Hwf r. unfold r. clear r.
  destruct (editor c) as [ed|] eqn:Hed.
  - destruct (writeTextOutcome br) eqn:Hw.
    + rewrite (shareCode_fallback_run br c ed w Hed (or_intror Hw) Hwf).
      unfold dom_wf in *. cbn.
      repeat split; [by destruct (execCopyOutcome br)|].
      eapply Forall_impl; [exact Hwf|]. cbn. lia.
    + unfold shareCode. rewrite Hed.
      unfold mbind, Eff_bind, tryCatch, writeText. rewrite Hw. cbn.
      by repeat split.
    + rewrite (shareCode_fallback_run br c ed w Hed (or_introl Hw) Hwf).
      unfold dom_wf in *. cbn.
      repeat split; [by destruct (execCopyOutcome br)|].
      eapply Forall_impl; [exact Hwf|]. cbn. lia.
  - unfold shareCode. rewrite Hed. cbn. by rewrite app_nil_r.
Qed.

(** X20: the share action does not look at what the legacy copy command
    returns.  When the clipboard write failed and the command returns
    false, the user is told that the code was copied while the clipboard
    holds what it held before. *)
Theorem shareCode_copy_refused br c ed w :
  editor c = Some ed →
  writeTextOutcome br = WriteRejects ∨ writeTextOutcome br = ClipboardAbsent →
  execCopyOutcome br = CopyReturnsFalse →
  dom_wf (document w) →
  let r := shareCode br c w in
  alerts r.2 = (alerts w ++ [copied])%list
  ∧ clipboard r.2 = clipboard w.
Proof.
  intros Hed Hw Hx Hwf r. unfold r.
  rewrite (shareCode_fallback_run br c ed w Hed Hw Hwf). cbn.
  by rewrite Hx.
Qed.

End ShareMore.

(** ** Concrete runs *)

Lemma defaultLanguages_differ : NoDup (map asciiLower defaultLanguages).
Proof. apply (bool_decide_unpack _). by vm_compute. Qed.

Lemma setup_refs_differ : NoDup (refs (editorStore (setup ∅).1)).
Proof. apply (bool_decide_unpack _). by vm_compute. Qed.

Lemma mounted_refs_differ br : NoDup (refs (editorStore (mounted br))).
Proof.
  destruct br as [wo xo []]; apply (bool_decide_unpack _); by vm_compute.
Qed.

(** "Python" of the default languages, with the ASCII lowering. *)
Lemma language_shown_after_pick_witness :
  let r := clickLanguageOption asciiLower "Python" pageDocument menusOpen
             (useEditor ∅).2 in
  languageLabel asciiLower defaultLanguages r.1 r.2 = "Python"
  ∧ Forall (λ other, languageHighlighted asciiLower other r.1 r.2
                     = bool_decide (other = "Python")) defaultLanguages.
Proof.
  apply (language_shown_after_pick asciiLower asciiLower_idem
           defaultLanguages "Python" pageDocument menusOpen (useEditor ∅).2).
  - cbn. tauto.
  - exact defaultLanguages_differ.
  - discriminate.
Defined.

Lemma rust_unlisted :
  Forall (λ lang, asciiLower lang
                  ≠ deref (setLanguage asciiLower (editorStore menusOpen)
                             "Rust" (useEditor ∅).2)
                      (currentLanguage (editorStore menusOpen)))
    defaultLanguages.
Proof. repeat constructor; vm_compute; discriminate. Qed.

(** "Rust" is not among the default languages: the button reads "rust". *)
Lemma language_shown_unlisted_witness :
  let σ := setLanguage asciiLower (editorStore menusOpen) "Rust"
             (useEditor ∅).2 in
  languageLabel asciiLower defaultLanguages menusOpen σ = "rust"
  ∧ Forall (λ lang, languageHighlighted asciiLower lang menusOpen σ = false)
      defaultLanguages.
Proof.
  exact (language_shown_unlisted asciiLower defaultLanguages menusOpen
           (setLanguage asciiLower (editorStore menusOpen) "Rust"
              (useEditor ∅).2) rust_unlisted).
Defined.

Lemma onMounted_create_failed_witness :
  let r := onMounted brokenBrowser true (setup ∅).1 (setup ∅).2 blankWorld in
  r.1 = Returned (setup ∅).1
  ∧ console r.2
    = [ConsoleError "Failed to initialize Monaco Editor:" MonacoError]
  ∧ MonacoEnvironment r.2 = Some getWorkerUrl.
Proof.
  exact (onMounted_create_failed brokenBrowser (setup ∅).1 (setup ∅).2
           blankWorld eq_refl).
Defined.

Lemma onMounted_shows_store_witness :
  let r := onMounted modernBrowser true (setup ∅).1 (setup ∅).2 blankWorld in
  ∃ c', r.1 = Returned c'
        ∧ is_Some (editor c')
        ∧ in_sync c' (setup ∅).2
        ∧ console r.2 = [].
Proof.
  exact (onMounted_shows_store modernBrowser (setup ∅).1 (setup ∅).2
           blankWorld eq_refl).
Defined.

(** An edit that leaves two lines in the widget. *)
Lemma buffer_is_stored_and_shared_witness :
  let r := editBuffer ("print(1)" ++ lf ++ "print(2)")
             (mounted modernBrowser) (setup ∅).2 in
  r.2 !! defaultCode (editorStore r.1) = getValue <$> editor r.1
  ∧ clipboard (shareCode modernBrowser r.1 pageWorld).2
    = getValue <$> editor r.1
  ∧ editor r.1
    = Some {| value := "print(1)" ++ lf ++ "print(2)";
              language := "html"; theme := "vs-dark" |}.
Proof.
  exact (buffer_is_stored_and_shared modernBrowser
           ("print(1)" ++ lf ++ "print(2)") (mounted modernBrowser)
           (mkWidget defaultCodeSample "html" "vs-dark") (setup ∅).2
           pageWorld eq_refl eq_refl).
Defined.

Lemma mounted_follows :
  follows exampleLanguage exampleTheme (mounted modernBrowser) (setup ∅).2.
Proof. by vm_compute. Qed.

Lemma runEffects_settle_witness :
  runEffects exampleLanguage exampleTheme (mounted modernBrowser) (setup ∅).2
  = mounted modernBrowser.
Proof.
  exact (proj1 (runEffects_settle exampleLanguage exampleTheme
                  (mounted modernBrowser) (setup ∅).2 mounted_follows)).
Defined.

(** The user picks "C++", which the widget does not know, edits, picks the
    light theme and clicks outside. *)
Lemma turns_keep_sync_witness :
  let r := turns asciiLower exampleLanguage exampleTheme pageDocument
             [PickLanguage "C++"; EditBuffer "int main() {}";
              PickTheme "Light"; ClickOutside]
             (mounted modernBrowser, (setup ∅).2) in
  follows exampleLanguage exampleTheme r.1 r.2
  ∧ editorStore r.1 = editorStore (mounted modernBrowser)
  ∧ (is_Some (editor r.1) ↔ is_Some (editor (mounted modernBrowser))).
Proof.
  exact (turns_keep_sync asciiLower exampleLanguage exampleTheme
           [PickLanguage "C++"; EditBuffer "int main() {}";
            PickTheme "Light"; ClickOutside]
           pageDocument (mounted modernBrowser) (setup ∅).2
           (mounted_refs_differ modernBrowser) mounted_follows).
Defined.

(** In that run the store holds "c++" and the widget shows plain text. *)
Example turns_unknown_language :
  let r := turns asciiLower exampleLanguage exampleTheme pageDocument
             [PickLanguage "C++"]
             (mounted modernBrowser, (setup ∅).2) in
  r.2 !! currentLanguage (editorStore r.1) = Some "c++"
  ∧ language <$> editor r.1 = Some "plaintext".
Proof. by vm_compute. Qed.

Lemma mounted_theme_known : theme_known (mounted modernBrowser) (setup ∅).2.
Proof. left. by vm_compute. Qed.

Lemma turns_keep_theme_witness :
  let r := turns asciiLower exampleLanguage exampleTheme pageDocument
             [PickTheme "Solarized"; EditBuffer "print(1)"; ToggleThemes]
             (mounted modernBrowser, (setup ∅).2) in
  theme_known r.1 r.2
  ∧ ((themeLabel r.1 r.2 = "Dark" ∧ dynamicColor r.1 r.2 = "#1e1e1e")
     ∨ (themeLabel r.1 r.2 = "Light" ∧ dynamicColor r.1 r.2 = "#fff")).
Proof.
  exact (turns_keep_theme asciiLower exampleLanguage exampleTheme
           [PickTheme "Solarized"; EditBuffer "print(1)"; ToggleThemes]
           pageDocument (mounted modernBrowser) (setup ∅).2
           (mounted_refs_differ modernBrowser) mounted_theme_known).
Defined.

(** A first state container, a second one, a change of the theme through
    the first, and then a third one. *)
Lemma later_example :
  later asciiLower (useEditor ∅).2
    (call asciiLower (useEditor ∅).1 (SetTheme "Light")
       (useEditor (useEditor ∅).2).2).
Proof. apply later_call, later_useEditor, later_now. Qed.

Lemma useEditor_own_state_witness :
  let s := call asciiLower (useEditor ∅).1 (SetTheme "Light")
             (useEditor (useEditor ∅).2).2 in
  let h1 := (useEditor ∅).1 in
  let h3 := (useEditor s).1 in
  Forall (λ l, l ∉ refs h3) (refs h1)
  ∧ ∀ op s',
      call asciiLower h1 op s' !! target h1 op = Some (written asciiLower op)
      ∧ call asciiLower h3 op s' !! target h3 op
        = Some (written asciiLower op)
      ∧ Forall (λ l, call asciiLower h1 op s' !! l = s' !! l) (refs h3)
      ∧ Forall (λ l, call asciiLower h3 op s' !! l = s' !! l) (refs h1).
Proof.
  exact (useEditor_own_state asciiLower ∅ _ later_example).
Defined.

Lemma pageDocument_wf : dom_wf (document pageWorld).
Proof. repeat constructor; cbn; lia. Qed.

Lemma shareCode_always_returns_witness :
  let r := shareCode legacyBrowser (mounted legacyBrowser) pageWorld in
  r.1 = Returned ()
  ∧ alerts r.2 = [copied]
  ∧ body (document r.2) = body pageDocument
  ∧ clickListeners (document r.2) = [CloseDropdowns]
  ∧ MonacoEnvironment r.2 = None
  ∧ dom_wf (document r.2).
Proof.
  exact (shareCode_always_returns legacyBrowser (mounted legacyBrowser)
           pageWorld pageDocument_wf).
Defined.

Lemma shareCode_copy_refused_witness :
  let r := shareCode refusingBrowser (mounted refusingBrowser) pageWorld in
  alerts r.2 = [copied] ∧ clipboard r.2 = None.
Proof.
  exact (shareCode_copy_refused refusingBrowser (mounted refusingBrowser)
           (mkWidget defaultCodeSample "html" "vs-dark") pageWorld
           eq_refl (or_intror eq_refl) eq_refl pageDocument_wf).
Defined.
